(** * Search and date-filter logic of the ARGO float map view

    A shallow embedding of the filtering code of
    [frontend/src/components/MapView.tsx]: the year extraction
    [extractDateFilterFromSearch], the search effect that fills
    [filteredFloats], and the fetch effect [fetchArgoFloats].

    Modelling conventions.
    - A JavaScript string is a sequence of UTF-16 code units.  The model takes
      the code units below 256 (Latin-1), so a string is a [string] of
      [ascii]; [toLowerCase], [trim] and the regular-expression classes are
      the ECMAScript ones restricted to that range.
    - A finite JavaScript number is a rational; comparisons with integer
      constants, [Math.abs] and [toFixed] are defined by ECMAScript on the
      exact mathematical value, so [lat] and [lon] are taken in [Q].
      [cycle] is an integer, in [Z]; the decimal form that [toString]
      gives is the one of JavaScript for the safe integers, of magnitude
      below 2^53, and a statement that depends on the digits of a cycle
      carries that bound. *)

From Stdlib Require Import ZArith QArith Qabs Qround Lia Bool Ascii String DecimalString.
From stdpp Require Import base list.
From Stdlib Require Import Lqa.

Local Open Scope string_scope.

(** ** JavaScript strings *)

Module JsString.

Definition code (c : ascii) : N := N_of_ascii c.

Definition inRange (lo hi : N) (c : ascii) : bool :=
  (lo <=? code c)%N && (code c <=? hi)%N.

(** [\d] of a regular expression without the unicode flag. *)
Definition isDigit (c : ascii) : bool := inRange 48 57 c.

(** [\w]: letters, digits and the underscore. *)
Definition isWordChar (c : ascii) : bool :=
  inRange 97 122 c || inRange 65 90 c || isDigit c || (code c =? 95)%N.

(** WhiteSpace and LineTerminator code units below 256: TAB, LF, VT, FF,
    CR, SP and NBSP. *)
Definition isWhiteSpace (c : ascii) : bool :=
  inRange 9 13 c || (code c =? 32)%N || (code c =? 160)%N.

(** Lower-case mapping of one code unit: A-Z, and the Latin-1 capitals
    U+00C0..U+00DE without the multiplication sign U+00D7. *)
Definition toLowerChar (c : ascii) : ascii :=
  if inRange 65 90 c || (inRange 192 222 c && negb (code c =? 215)%N)
  then ascii_of_N (code c + 32)
  else c.

Fixpoint toLowerCase (s : string) : string :=
  match s with
  | EmptyString => EmptyString
  | String c s' => String (toLowerChar c) (toLowerCase s')
  end.

Definition isEmpty (s : string) : bool :=
  match s with
  | EmptyString => true
  | String _ _ => false
  end.

Fixpoint trimStart (s : string) : string :=
  match s with
  | EmptyString => EmptyString
  | String c s' => if isWhiteSpace c then trimStart s' else s
  end.

Fixpoint trimEnd (s : string) : string :=
  match s with
  | EmptyString => EmptyString
  | String c s' =>
      let t := trimEnd s' in
      if isWhiteSpace c && isEmpty t then EmptyString else String c t
  end.

Definition trim (s : string) : string := trimEnd (trimStart s).

(** [s.startsWith(p)] *)
Fixpoint startsWith (s p : string) {struct p} : bool :=
  match p, s with
  | EmptyString, _ => true
  | String _ _, EmptyString => false
  | String a p', String b s' => Ascii.eqb a b && startsWith s' p'
  end.

(** [s.includes(t)]: [t] occurs in [s] as a contiguous run. *)
Fixpoint includes (s t : string) : bool :=
  startsWith s t ||
  match s with
  | EmptyString => false
  | String _ s' => includes s' t
  end.

(** [String.prototype.repeat] for a single code unit. *)
Fixpoint repeatChar (c : ascii) (n : nat) : string :=
  match n with
  | O => EmptyString
  | S n' => String c (repeatChar c n')
  end.

End JsString.

Import JsString.

(** ** JavaScript numbers *)

Module JsNumber.

Definition Qltb (x y : Q) : bool := negb (Qle_bool y x).

(** Decimal digits of a non-negative integer; zero prints as one digit. *)
Definition digits (n : Z) : string :=
  NilEmpty.string_of_uint (N.to_uint (Z.to_N n)).

(** [Number.isSafeInteger] on an integer value. *)
Definition isSafeInteger (n : Z) : bool := (Z.abs n <? 2 ^ 53)%Z.

(** [Number.prototype.toString] on a safe integer, where the result is the
    exact decimal form.  Above 2^53 JavaScript prints the shortest digits
    that round-trip, padded with zeros, and from 10^21 on the exponent form:
    this definition does not follow it there. *)
Definition toString (n : Z) : string :=
  if (n <? 0)%Z then "-" ++ digits (- n) else digits n.

(** The integer [n] for which [n / 10^f - x] is closest to zero, the larger
    one of two. *)
Definition nearest (x : Q) (f : nat) : Z :=
  Qfloor (x * inject_Z (10 ^ Z.of_nat f) + (1 # 2)).

(** [Number.prototype.toFixed(f)] on a finite value below 10^21. *)
Definition toFixed (x : Q) (f : nat) : string :=
  let neg := Qltb x 0 in
  let s := if neg then "-" else "" in
  let x' := if neg then (- x)%Q else x in
  let m := digits (nearest x' f) in
  let m' :=
    match f with
    | O => m
    | S _ =>
        let m1 :=
          if (String.length m <=? f)%nat
          then repeatChar "0" (f + 1 - String.length m) ++ m
          else m in
        let k := String.length m1 in
        substring 0 (k - f) m1 ++ "." ++ substring (k - f) f m1
    end in
  s ++ m'.

End JsNumber.

Import JsNumber.

(** ** The map view *)

Module MapView.

(** [interface ArgoFloat], with the two further properties ([oxygen],
    [region]) that the served JSON objects carry. *)
Record ArgoFloat := mkArgoFloat {
  id : string;
  lat : Q;
  lon : Q;
  temperature : option Q;
  salinity : option Q;
  pressure : option Q;
  oxygen : option Q;
  cycle : option Z;
  time : option string;
  status : string;
  region : option string
}.

Record DateFilters := mkDateFilters {
  df_startDate : string;
  df_endDate : string
}.

(** *** [extractDateFilterFromSearch]: the pattern [/\b(20\d{2})\b/] *)

(** The position after the four digits is a word boundary: the input ends
    there or goes on with a non-word character. *)
Definition boundaryAfter (rest : string) : bool :=
  match rest with
  | EmptyString => true
  | String c _ => negb (isWordChar c)
  end.

(** [20\d{2}\b] anchored at the head of [s]. *)
Definition yearAt (s : string) : option string :=
  match s with
  | String c1 (String c2 (String c3 (String c4 rest))) =>
      if Ascii.eqb c1 "2" && Ascii.eqb c2 "0" && isDigit c3 && isDigit c4
         && boundaryAfter rest
      then Some (String c1 (String c2 (String c3 (String c4 EmptyString))))
      else None
  | _ => None
  end.

(** Leftmost match; [prevWord] tells whether the character before the
    current position is a word character. *)
Fixpoint yearScan (prevWord : bool) (s : string) : option string :=
  match s with
  | EmptyString => None
  | String c s' =>
      match (if prevWord then None else yearAt s) with
      | Some y => Some y
      | None => yearScan (isWordChar c) s'
      end
  end.

Definition extractDateFilterFromSearch (term : string) : option DateFilters :=
  match yearScan false term with
  | Some year => Some (mkDateFilters (year ++ "-01-01") (year ++ "-12-31"))
  | None => None
  end.

(** *** The callback of [argoFloats.filter] *)

Definition atlanticBox (lat lon : Q) : bool :=
  Qle_bool (-70) lon && Qle_bool lon 20 && Qle_bool (Qabs lat) 60.

Definition pacificBox (lat lon : Q) : bool :=
  (Qle_bool 120 lon || Qle_bool lon (-70)) && Qle_bool (Qabs lat) 60.

Definition indianBox (lat lon : Q) : bool :=
  Qle_bool 20 lon && Qle_bool lon 120 && Qle_bool (-60) lat && Qle_bool lat 30.

Definition northBand (lat : Q) : bool := Qltb 23 lat.

Definition southBand (lat : Q) : bool := Qltb lat (-23).

Definition equatorialBand (lat : Q) : bool := Qle_bool (Qabs lat) 23.

Definition idRule (term : string) (float : ArgoFloat) : bool :=
  includes (toLowerCase (id float)) term.

Definition coordString (f : nat) (float : ArgoFloat) : string :=
  toFixed (lat float) f ++ "," ++ toFixed (lon float) f.

Definition coordRule (term : string) (float : ArgoFloat) : bool :=
  includes (coordString 1 float) term || includes (coordString 0 float) term.

(** [float.cycle && float.cycle.toString().includes(term)]: the left
    operand is falsy for [null] and for [0]. *)
Definition cycleRule (term : string) (float : ArgoFloat) : bool :=
  match cycle float with
  | None => false
  | Some c => if (c =? 0)%Z then false else includes (toString c) term
  end.

Definition searchMatch (term : string) (float : ArgoFloat) : bool :=
  if includes (toLowerCase (id float)) term then true
  else if includes (coordString 1 float) term then true
  else if includes (coordString 0 float) term then true
  else if cycleRule term float then true
  else if includes term "atlantic" then atlanticBox (lat float) (lon float)
  else if includes term "pacific" then pacificBox (lat float) (lon float)
  else if includes term "indian" then indianBox (lat float) (lon float)
  else if includes term "north" || String.eqb term "arctic"
    then northBand (lat float)
  else if includes term "south" || String.eqb term "antarctic"
    then southBand (lat float)
  else if includes term "equatorial" || String.eqb term "equator"
    then equatorialBand (lat float)
  else false.

(** *** Component state and the two effects *)

Record State := mkState {
  argoFloats : list ArgoFloat;
  filteredFloats : list ArgoFloat;
  loading : bool;
  error : option string;
  searchTerm : string;
  startDate : string;
  endDate : string
}.

Definition initialState : State :=
  mkState [] [] true None "" "2015-01-01" "2024-12-31".

Definition setDates (d : DateFilters) (st : State) : State :=
  mkState (argoFloats st) (filteredFloats st) (loading st) (error st)
          (searchTerm st) (df_startDate d) (df_endDate d).

Definition setFilteredFloats (l : list ArgoFloat) (st : State) : State :=
  mkState (argoFloats st) l (loading st) (error st)
          (searchTerm st) (startDate st) (endDate st).

(** The list handed to [setFilteredFloats]. *)
Definition filterFloats (searchTerm : string) (floats : list ArgoFloat)
  : list ArgoFloat :=
  if isEmpty (trim searchTerm) then floats
  else
    let term := trim (toLowerCase searchTerm) in
    filter (fun float => searchMatch term float) floats.

(** The effect on [searchTerm, argoFloats]. *)
Definition searchEffect (st : State) : State :=
  let st1 :=
    match extractDateFilterFromSearch (searchTerm st) with
    | Some dateFilters => setDates dateFilters st
    | None => st
    end in
  setFilteredFloats (filterFloats (searchTerm st) (argoFloats st)) st1.

(** *** [fetchArgoFloats] *)

(** The [application/x-www-form-urlencoded] serializer behind
    [URLSearchParams.toString]. *)
Definition hexDigit (n : N) : ascii :=
  if (n <? 10)%N then ascii_of_N (48 + n) else ascii_of_N (55 + n).

Definition percent (b : N) : string :=
  String "%" (String (hexDigit (b / 16)) (String (hexDigit (b mod 16)) EmptyString)).

Definition urlencodeChar (c : ascii) : string :=
  if inRange 97 122 c || inRange 65 90 c || isDigit c
     || Ascii.eqb c "*" || Ascii.eqb c "-" || Ascii.eqb c "." || Ascii.eqb c "_"
  then String c EmptyString
  else if Ascii.eqb c " " then "+"
  else if (code c <? 128)%N then percent (code c)
  else percent (192 + code c / 64) ++ percent (128 + code c mod 64).

Fixpoint urlencode (s : string) : string :=
  match s with
  | EmptyString => EmptyString
  | String c s' => urlencodeChar c ++ urlencode s'
  end.

Fixpoint paramsToString (params : list (string * string)) : string :=
  match params with
  | [] => EmptyString
  | [(k, v)] => urlencode k ++ "=" ++ urlencode v
  | (k, v) :: rest => urlencode k ++ "=" ++ urlencode v ++ "&" ++ paramsToString rest
  end.

Definition queryParams (st : State) : list (string * string) :=
  (if String.eqb (startDate st) "2015-01-01" then [] else [("start_date", startDate st)])
  ++ (if String.eqb (endDate st) "2024-12-31" then [] else [("end_date", endDate st)]).

Definition requestUrl (st : State) : string :=
  let q := paramsToString (queryParams st) in
  "/floats/locations" ++ (if isEmpty q then "" else "?" ++ q).

(** The parsed body of an answer of [/floats/locations] that holds a
    [floats] array; the answers without one are in [LocationsBody] below. *)
Record LocationsData := mkLocationsData {
  data_status : string;
  data_floats : list ArgoFloat;
  data_message : option string
}.

(** What [await fetch(url)] and [await response.json()] can produce: the
    fetch rejects, or there is a response whose body parses or not. *)
Inductive FetchResult :=
| FetchRejected (message : string)
| Response (ok : bool) (status : Z) (json : string + LocationsData).

Definition setArgoFloats (l : list ArgoFloat) (st : State) : State :=
  mkState l (filteredFloats st) (loading st) (error st)
          (searchTerm st) (startDate st) (endDate st).

Definition setError (e : option string) (st : State) : State :=
  mkState (argoFloats st) (filteredFloats st) (loading st) e
          (searchTerm st) (startDate st) (endDate st).

Definition setLoading (b : bool) (st : State) : State :=
  mkState (argoFloats st) (filteredFloats st) b (error st)
          (searchTerm st) (startDate st) (endDate st).

(** The [try] block on an answer whose body, when it parses, holds a
    [floats] array: either the floats to store or the message of the
    [Error] that reaches [catch].  [tryCalls] below covers the other
    answers. *)
Definition tryFetch (server : string -> FetchResult) (st : State)
  : string + list ArgoFloat :=
  match server (requestUrl st) with
  | FetchRejected msg => inl msg
  | Response false status _ => inl ("Failed to fetch: " ++ toString status)
  | Response true _ (inl msg) => inl msg
  | Response true _ (inr data) =>
      if String.eqb (data_status data) "success" then inr (data_floats data)
      else
        inl match data_message data with
            | Some m => if isEmpty m then "Failed to load float data" else m
            | None => "Failed to load float data"
            end
  end.

Definition fetchArgoFloats (server : string -> FetchResult) (st : State) : State :=
  setLoading false
    match tryFetch server st with
    | inr floats => setArgoFloats floats st
    | inl msg => setError (Some msg) st
    end.

(** *** [fetchArgoFloats] as the setter calls it makes

    The state above holds an array of floats.  The function itself can hand
    [undefined] to [setArgoFloats], when an answer with status "success" has
    no [floats]: the next statement reads [data.floats.length] and throws.
    The calls are modelled for every answer. *)

(** A parsed body; [body_floats] is [None] when [data.floats] is
    [undefined] or [null]. *)
Record LocationsBody := mkLocationsBody {
  body_status : string;
  body_floats : option (list ArgoFloat);
  body_message : option string
}.

Inductive FetchAnswer :=
| FetchFailed (message : string)
| FetchAnswered (ok : bool) (status : Z) (json : string + LocationsBody).

Inductive SetterCall :=
| CallSetArgoFloats (floats : option (list ArgoFloat))
| CallSetError (message : string)
| CallSetLoading (value : bool).

(** The calls of the [try] block and of [catch]; [typeErrorMessage] is the
    message that the engine gives to the [TypeError] of reading [length] of
    [undefined]. *)
Definition tryCalls (typeErrorMessage : string) (answer : FetchAnswer)
  : list SetterCall :=
  match answer with
  | FetchFailed msg => [CallSetError msg]
  | FetchAnswered false status _ =>
      [CallSetError ("Failed to fetch: " ++ toString status)]
  | FetchAnswered true _ (inl msg) => [CallSetError msg]
  | FetchAnswered true _ (inr body) =>
      if String.eqb (body_status body) "success" then
        match body_floats body with
        | Some floats => [CallSetArgoFloats (Some floats)]
        | None => [CallSetArgoFloats None; CallSetError typeErrorMessage]
        end
      else
        [CallSetError
           match body_message body with
           | Some m => if isEmpty m then "Failed to load float data" else m
           | None => "Failed to load float data"
           end]
  end.

(** The whole function: the request goes to [requestUrl st], and [finally]
    adds [setLoading(false)]. *)
Definition fetchCalls (typeErrorMessage : string)
    (server : string -> FetchAnswer) (st : State) : list SetterCall :=
  tryCalls typeErrorMessage (server (requestUrl st)) ++ [CallSetLoading false].

(** A call on a state that holds an array; storing [undefined] leaves these
    states. *)
Definition applyCall (st : State) (c : SetterCall) : option State :=
  match c with
  | CallSetArgoFloats (Some floats) => Some (setArgoFloats floats st)
  | CallSetArgoFloats None => None
  | CallSetError msg => Some (setError (Some msg) st)
  | CallSetLoading b => Some (setLoading b st)
  end.

Fixpoint applyCalls (st : State) (calls : list SetterCall) : option State :=
  match calls with
  | [] => Some st
  | c :: rest =>
      match applyCall st c with
      | Some st' => applyCalls st' rest
      | None => None
      end
  end.

(** An answer whose body holds a floats array, as an answer in general. *)
Definition answerOf (r : FetchResult) : FetchAnswer :=
  match r with
  | FetchRejected msg => FetchFailed msg
  | Response ok status (inl msg) => FetchAnswered ok status (inl msg)
  | Response ok status (inr data) =>
      FetchAnswered ok status
        (inr (mkLocationsBody (data_status data) (Some (data_floats data))
                              (data_message data)))
  end.

End MapView.

Import MapView.

(** ** The rules of the search matcher, named *)

Module Rules.

Inductive Keyword := Atlantic | Pacific | Indian | North | South | Equatorial.

(** The order in which the callback looks for the keywords. *)
Definition keywordOrder : list Keyword :=
  [Atlantic; Pacific; Indian; North; South; Equatorial].

(** The term names the keyword. *)
Definition mentions (term : string) (k : Keyword) : bool :=
  match k with
  | Atlantic => includes term "atlantic"
  | Pacific => includes term "pacific"
  | Indian => includes term "indian"
  | North => includes term "north" || String.eqb term "arctic"
  | South => includes term "south" || String.eqb term "antarctic"
  | Equatorial => includes term "equatorial" || String.eqb term "equator"
  end.

(** The coordinates of the record satisfy the keyword's predicate. *)
Definition holds (k : Keyword) (float : ArgoFloat) : bool :=
  match k with
  | Atlantic => atlanticBox (lat float) (lon float)
  | Pacific => pacificBox (lat float) (lon float)
  | Indian => indianBox (lat float) (lon float)
  | North => northBand (lat float)
  | South => southBand (lat float)
  | Equatorial => equatorialBand (lat float)
  end.





(** The first keyword, in the callback's order, that the term names: the
    one whose branch of the callback returns. *)
Definition firstKeyword (term : string) : option Keyword :=
  List.find (mentions term) keywordOrder.

Definition firstKeywordRule (term : string) (float : ArgoFloat) : bool :=
  match firstKeyword term with
  | Some k => holds k float
  | None => false
  end.

End Rules.

Import Rules.

(** ** Vocabulary for the statements *)

Fixpoint allChars (P : ascii -> bool) (s : string) : bool :=
  match s with
  | EmptyString => true
  | String c s' => P c && allChars P s'
  end.

(** A run [20dd] of four characters. *)
Definition isYearSeq (y : string) : bool :=
  match y with
  | String c1 (String c2 (String c3 (String c4 EmptyString))) =>
      Ascii.eqb c1 "2" && Ascii.eqb c2 "0" && isDigit c3 && isDigit c4
  | _ => false
  end.

(** Whether the last character of [a] is a word character; [pw] answers for
    the empty [a]. *)
Fixpoint lastWord (pw : bool) (a : string) : bool :=
  match a with
  | EmptyString => pw
  | String c a' => lastWord (isWordChar c) a'
  end.

Definition wordBefore (a : string) : bool := lastWord false a.

Definition wordAfter (b : string) : bool :=
  match b with
  | EmptyString => false
  | String c _ => isWordChar c
  end.

(** [y] occurs in [term] between [a] and [b] as a token of its own. *)
Definition standaloneYear (term a y b : string) : Prop :=
  term = a ++ y ++ b /\ isYearSeq y = true
  /\ wordBefore a = false /\ wordAfter b = false.

(** The coordinates are within the ranges of latitude and longitude. *)
Definition validCoordinates (float : ArgoFloat) : Prop :=
  (-90 <= lat float <= 90)%Q /\ (-180 <= lon float <= 180)%Q.


(** Characters of a formatted number or coordinate pair. *)
Definition isNumChar (c : ascii) : bool :=
  isDigit c || Ascii.eqb c "-" || Ascii.eqb c "." || Ascii.eqb c ",".

(** A checker for "every [20dd] run touches a word character". *)
Fixpoint everyYearAdjacent (pw : bool) (s : string) : bool :=
  match s with
  | EmptyString => true
  | String c s' =>
      match s with
      | String c1 (String c2 (String c3 (String c4 rest))) =>
          if isYearSeq (String c1 (String c2 (String c3 (String c4 EmptyString))))
          then pw || wordAfter rest
          else true
      | _ => true
      end
      && everyYearAdjacent (isWordChar c) s'
  end.

(** ** The rest of the component: handlers and what is rendered *)

Module MapViewDisplay.

(** [const toggleMapLayer], on the value of [mapLayer]. *)
Definition toggleMapLayer (mapLayer : string) : string :=
  if String.eqb mapLayer "satellite" then "ocean" else "satellite".

(** The [onChange] handlers of the search box and of the two date inputs. *)
Definition setSearchTerm (term : string) (st : State) : State :=
  mkState (argoFloats st) (filteredFloats st) (loading st) (error st)
          term (startDate st) (endDate st).

Definition setStartDate (d : string) (st : State) : State :=
  mkState (argoFloats st) (filteredFloats st) (loading st) (error st)
          (searchTerm st) d (endDate st).

Definition setEndDate (d : string) (st : State) : State :=
  mkState (argoFloats st) (filteredFloats st) (loading st) (error st)
          (searchTerm st) (startDate st) d.

(** Truthiness of a [string | null]: [null] and the empty string are
    falsy. *)
Definition truthy (s : option string) : bool :=
  match s with
  | Some m => negb (isEmpty m)
  | None => false
  end.

(** The floats that get a marker:
    [!loading && !error && filteredFloats.slice(0, 1000).map(...)]. *)
Definition markers (st : State) : list ArgoFloat :=
  if negb (loading st) && negb (truthy (error st))
  then take 1000 (filteredFloats st)
  else [].

(** [floats.filter(f => f.status === s).length] *)
Definition countStatus (s : string) (floats : list ArgoFloat) : nat :=
  length (filter (fun f => String.eqb (status f) s) floats).

(** [s.split(' ')[0]]: what comes before the first space. *)
Fixpoint firstField (s : string) : string :=
  match s with
  | EmptyString => EmptyString
  | String c s' => if Ascii.eqb c " " then EmptyString else String c (firstField s')
  end.

(** The "Last Profile" line of the popup:
    [float.time && float.time.split(' ')[0]], absent when there is no line. *)
Definition lastProfile (float : ArgoFloat) : option string :=
  if truthy (time float)
  then match time float with
       | Some t => Some (firstField t)
       | None => None
       end
  else None.

(** What can happen to the component state: a handler sets a value, or one
    of the two effects runs; the fetch effect with what the server says. *)
Inductive Action :=
| TypeSearch (term : string)
| PickStartDate (d : string)
| PickEndDate (d : string)
| RunSearchEffect
| RunFetchEffect (server : string -> FetchResult).

Definition act (st : State) (a : Action) : State :=
  match a with
  | TypeSearch term => setSearchTerm term st
  | PickStartDate d => setStartDate d st
  | PickEndDate d => setEndDate d st
  | RunSearchEffect => searchEffect st
  | RunFetchEffect server => fetchArgoFloats server st
  end.

Definition run (actions : list Action) (st : State) : State :=
  fold_left act actions st.

End MapViewDisplay.

Import MapViewDisplay.

(** Characters that the form-urlencoded serializer leaves as they are. *)
Definition isUnreserved (c : ascii) : bool :=
  inRange 97 122 c || inRange 65 90 c || isDigit c
  || Ascii.eqb c "*" || Ascii.eqb c "-" || Ascii.eqb c "." || Ascii.eqb c "_".

(** ** Sample records and states *)

Local Open Scope Q_scope.

Definition polarFloat : ArgoFloat :=
  mkArgoFloat "F1" 70 150 None None None None None None "active" None.

Definition tasmanFloat : ArgoFloat :=
  mkArgoFloat "WMO_2021_PAC_042" (-35) 150 (Some (238 # 10)) (Some (352 # 10))
              (Some 1245) (Some (68 # 10)) (Some 42%Z) (Some "2021-06-15"%string)
              "active" (Some "pacific"%string).

Definition cycleZeroFloat : ArgoFloat :=
  mkArgoFloat "F7" (123 # 10) (456 # 10) None None None None (Some 0%Z) None
              "active" None.

Definition tasmanFloatBare : ArgoFloat :=
  mkArgoFloat "WMO_2021_PAC_042" (-35) 150 None None None None (Some 42%Z) None
              "inactive" (Some "atlantic"%string).

Definition pacificQuery : State :=
  mkState [polarFloat; tasmanFloat] [] false None "pacific" "2019-01-01" "2022-12-31".



Definition acceptingServer (url : string) : FetchResult :=
  Response true 200 (inr (mkLocationsData "success" [tasmanFloat] None)).

(** ** The operations on sample inputs *)

Example toFixed_ex1 : toFixed (-35) 1 = "-35.0". Proof. reflexivity. Qed.
Example toFixed_ex2 : toFixed (25631 # 1000) 1 = "25.6". Proof. reflexivity. Qed.
Example toFixed_ex3 : toFixed (-4 # 100) 1 = "-0.0". Proof. reflexivity. Qed.
Example toFixed_ex4 : toFixed (25 # 10) 0 = "3". Proof. reflexivity. Qed.
Example toFixed_ex5 : toFixed (-142847 # 1000) 0 = "-143". Proof. reflexivity. Qed.
Example toFixed_ex6 : toFixed (5 # 100) 1 = "0.1". Proof. reflexivity. Qed.
Example toFixed_ex7 : toFixed 0 1 = "0.0". Proof. reflexivity. Qed.
Example toString_ex : toString 42 = "42". Proof. reflexivity. Qed.
Example year_ex1 : yearScan false "floats 2021 pacific" = Some "2021". Proof. reflexivity. Qed.
Example year_ex2 : yearScan false "wmo_2021" = None. Proof. reflexivity. Qed.
Example year_ex3 : yearScan false "12021 2022" = Some "2022". Proof. reflexivity. Qed.
Example year_ex5 :
  extractDateFilterFromSearch "2021" = Some (mkDateFilters "2021-01-01" "2021-12-31").
Proof. reflexivity. Qed.
Example year_ex6 : extractDateFilterFromSearch "12021" = None.
Proof. reflexivity. Qed.
Example year_ex4 : yearScan false "2021-06" = Some "2021". Proof. reflexivity. Qed.



Example includes_ex1 : includes "wmo_2021_pac_042" "wmo_2021" = true.
Proof. reflexivity. Qed.

Example includes_ex2 : includes "wmo_2021_pac_042" "pacific" = false.
Proof. reflexivity. Qed.

Example trim_ex : trim "  North Pacific  " = "North Pacific".
Proof. reflexivity. Qed.

Example lower_ex : toLowerCase "WMO_2021_PAC_042" = "wmo_2021_pac_042".
Proof. reflexivity. Qed.

(** ** Facts about the string operations *)

Section StringFacts.

Lemma startsWith_app (p r : string) : startsWith (p ++ r) p = true.
Proof.
  induction p as [|c p IH]; simpl.
  - reflexivity.
  - rewrite Ascii.eqb_refl. exact IH.
Qed.

Lemma startsWith_inv (s p : string) :
  startsWith s p = true -> exists r, s = p ++ r.
Proof.
  revert s. induction p as [|c p IH]; intros s H.
  - exists s. reflexivity.
  - destruct s as [|d s]; simpl in H; [discriminate|].
    apply andb_prop in H as [Hc Hs].
    apply Ascii.eqb_eq in Hc. subst d.
    destruct (IH _ Hs) as [r ->]. exists r. reflexivity.
Qed.

(** [includes] is the substring test. *)
Lemma includes_iff (s t : string) :
  includes s t = true <-> exists a b, s = a ++ t ++ b.
Proof.
  split.
  - induction s as [|c s IH]; simpl; intros H.
    + rewrite orb_false_r in H.
      apply startsWith_inv in H as [r Hr]. exists "", r. exact Hr.
    + apply orb_prop in H as [H|H].
      * apply startsWith_inv in H as [r Hr]. exists "", r. exact Hr.
      * destruct (IH H) as (a & b & ->). exists (String c a), b. reflexivity.
  - intros (a & b & ->). induction a as [|c a IH].
    + simpl (_ ++ _). destruct (t ++ b) eqn:E; simpl.
      * destruct t; [reflexivity | discriminate].
      * rewrite <- E, startsWith_app. reflexivity.
    + change (String c a ++ t ++ b) with (String c (a ++ t ++ b)).
      simpl. rewrite IH. apply orb_true_r.
Qed.

Lemma allChars_app (P : ascii -> bool) (a b : string) :
  allChars P (a ++ b) = allChars P a && allChars P b.
Proof.
  induction a as [|c a IH]; simpl.
  - reflexivity.
  - rewrite IH. apply andb_assoc.
Qed.

Lemma allChars_substring (P : ascii -> bool) (s : string) :
  allChars P s = true -> forall n m, allChars P (substring n m s) = true.
Proof.
  induction s as [|c s IH]; intros H n m.
  - destruct n, m; reflexivity.
  - simpl in H. apply andb_prop in H as [Hc Hs].
    destruct n as [|n]; simpl.
    + destruct m as [|m]; simpl; [reflexivity|].
      rewrite Hc. apply IH, Hs.
    + apply IH, Hs.
Qed.

Lemma allChars_repeatChar (P : ascii -> bool) (c : ascii) (n : nat) :
  P c = true -> allChars P (repeatChar c n) = true.
Proof.
  intros Hc. induction n as [|n IH]; simpl.
  - reflexivity.
  - rewrite Hc. exact IH.
Qed.

Lemma allChars_weaken (P R : ascii -> bool) (s : string) :
  (forall c, P c = true -> R c = true) ->
  allChars P s = true -> allChars R s = true.
Proof.
  intros HPR. induction s as [|c s IH]; simpl; intros H.
  - reflexivity.
  - apply andb_prop in H as [Hc Hs]. rewrite (HPR _ Hc). apply IH, Hs.
Qed.

(** A substring is made of characters of the string it occurs in. *)
Lemma allChars_includes (P : ascii -> bool) (s t : string) :
  allChars P s = true -> includes s t = true -> allChars P t = true.
Proof.
  intros Hs Hi. apply includes_iff in Hi as (a & b & ->).
  rewrite !allChars_app in Hs.
  apply andb_prop in Hs as [_ Hs]. apply andb_prop in Hs as [Ht _]. exact Ht.
Qed.

Lemma includes_foreign (P : ascii -> bool) (s t : string) :
  allChars P s = true -> allChars P t = false -> includes s t = false.
Proof.
  intros Hs Ht. destruct (includes s t) eqn:E; [|reflexivity].
  rewrite (allChars_includes P s t Hs E) in Ht. discriminate.
Qed.

Lemma trimStart_whitespace (s : string) :
  allChars isWhiteSpace s = true -> trimStart s = "".
Proof.
  induction s as [|c s IH]; simpl; intros H.
  - reflexivity.
  - apply andb_prop in H as [Hc Hs]. rewrite Hc. apply IH, Hs.
Qed.

Lemma trim_whitespace (s : string) :
  allChars isWhiteSpace s = true -> trim s = "".
Proof.
  intros H. unfold trim. rewrite trimStart_whitespace by exact H. reflexivity.
Qed.

End StringFacts.

(** ** Facts about number formatting *)

Section NumberFacts.

Lemma string_of_uint_digits (d : Decimal.uint) :
  allChars isDigit (NilEmpty.string_of_uint d) = true.
Proof.
  induction d as [|d IH|d IH|d IH|d IH|d IH|d IH|d IH|d IH|d IH|d IH];
    simpl; [reflexivity | exact IH ..].
Qed.

Lemma digits_allDigit (n : Z) : allChars isDigit (digits n) = true.
Proof. apply string_of_uint_digits. Qed.

Lemma isDigit_isNumChar (c : ascii) : isDigit c = true -> isNumChar c = true.
Proof. intros H. unfold isNumChar. rewrite H. reflexivity. Qed.

Lemma digits_numChars (n : Z) : allChars isNumChar (digits n) = true.
Proof.
  apply (allChars_weaken isDigit); [apply isDigit_isNumChar | apply digits_allDigit].
Qed.

Lemma toString_numChars (n : Z) : allChars isNumChar (toString n) = true.
Proof.
  unfold toString. destruct (n <? 0)%Z.
  - rewrite allChars_app, digits_numChars. reflexivity.
  - apply digits_numChars.
Qed.

Lemma toFixed_numChars (x : Q) (f : nat) : allChars isNumChar (toFixed x f) = true.
Proof.
  unfold toFixed.
  set (x' := if Qltb x 0 then (- x)%Q else x).
  set (m := digits (nearest x' f)).
  assert (Hm : allChars isNumChar m = true) by apply digits_numChars.
  rewrite allChars_app.
  apply andb_true_intro; split.
  - destruct (Qltb x 0); reflexivity.
  - destruct f as [|f]; [exact Hm|].
    set (m1 := if (String.length m <=? S f)%nat then _ else m).
    assert (Hm1 : allChars isNumChar m1 = true).
    { unfold m1. destruct (String.length m <=? S f)%nat; [|exact Hm].
      rewrite allChars_app, Hm, allChars_repeatChar; reflexivity. }
    rewrite !allChars_app, !allChars_substring by exact Hm1. reflexivity.
Qed.

Lemma coordString_numChars (f : nat) (float : ArgoFloat) :
  allChars isNumChar (coordString f float) = true.
Proof.
  unfold coordString. rewrite !allChars_app, !toFixed_numChars. reflexivity.
Qed.

(** No rule on formatted numbers fires for a term with a foreign
    character, a letter for one. *)
Lemma coordRule_foreign (term : string) (float : ArgoFloat) :
  allChars isNumChar term = false -> coordRule term float = false.
Proof.
  intros H. unfold coordRule.
  rewrite !(includes_foreign isNumChar) by (exact H || apply coordString_numChars).
  reflexivity.
Qed.

Lemma cycleRule_foreign (term : string) (float : ArgoFloat) :
  allChars isNumChar term = false -> cycleRule term float = false.
Proof.
  intros H. unfold cycleRule. destruct (cycle float) as [c|]; [|reflexivity].
  destruct (c =? 0)%Z; [reflexivity|].
  apply (includes_foreign isNumChar); [apply toString_numChars | exact H].
Qed.

End NumberFacts.

(** ** Facts about the year pattern *)

Section YearFacts.

Lemma boundaryAfter_wordAfter (b : string) : boundaryAfter b = negb (wordAfter b).
Proof. destruct b; reflexivity. Qed.

Lemma yearAt_sound (s y : string) :
  yearAt s = Some y ->
  exists b, s = y ++ b /\ isYearSeq y = true /\ wordAfter b = false.
Proof.
  destruct s as [|c1 [|c2 [|c3 [|c4 rest]]]]; simpl; try discriminate.
  destruct (Ascii.eqb c1 "2" && Ascii.eqb c2 "0" && isDigit c3 && isDigit c4) eqn:E;
    simpl; [|discriminate].
  rewrite boundaryAfter_wordAfter.
  destruct (wordAfter rest) eqn:W; simpl; [discriminate|].
  intros [= <-]. exists rest. simpl. rewrite E. auto.
Qed.

Lemma yearAt_complete (y b : string) :
  isYearSeq y = true -> wordAfter b = false -> yearAt (y ++ b) = Some y.
Proof.
  destruct y as [|c1 [|c2 [|c3 [|c4 [|c5 y]]]]]; simpl; try discriminate.
  intros E W. rewrite E, boundaryAfter_wordAfter, W. reflexivity.
Qed.

(** What the scan returns is a token of its own. *)
Lemma yearScan_sound (s y : string) (pw : bool) :
  yearScan pw s = Some y ->
  exists a b, s = a ++ y ++ b /\ isYearSeq y = true
              /\ lastWord pw a = false /\ wordAfter b = false.
Proof.
  revert pw. induction s as [|c s IH]; intros pw; [discriminate|].
  cbn [yearScan].
  destruct (if pw then None else yearAt (String c s)) as [y'|] eqn:E.
  - intros [= ->]. destruct pw; [discriminate|].
    apply yearAt_sound in E as (b & Hs & Hy & Hb).
    exists "", b. auto.
  - intros H. apply IH in H as (a & b & -> & Hy & Ha & Hb).
    exists (String c a), b. auto.
Qed.

(** The scan returns the first token of its own. *)
Lemma yearScan_complete (a y b : string) (pw : bool) :
  isYearSeq y = true -> wordAfter b = false -> lastWord pw a = false ->
  (forall a' y' b', a ++ y ++ b = a' ++ y' ++ b' -> isYearSeq y' = true ->
     lastWord pw a' = false -> wordAfter b' = false ->
     (String.length a <= String.length a')%nat) ->
  yearScan pw (a ++ y ++ b) = Some y.
Proof.
  intros Hy Hb. revert pw. induction a as [|c a IH]; intros pw Ha Hfirst.
  - simpl in Ha. subst pw. simpl (_ ++ _).
    pose proof (yearAt_complete y b Hy Hb) as E.
    destruct (y ++ b) as [|c s]; [discriminate|].
    cbn [yearScan]. rewrite E. reflexivity.
  - change (String c a ++ y ++ b) with (String c (a ++ y ++ b)).
    cbn [yearScan].
    destruct (if pw then None else yearAt (String c (a ++ y ++ b))) as [y'|] eqn:E.
    + destruct pw; [discriminate|].
      apply yearAt_sound in E as (b' & Hs & Hy' & Hb').
      specialize (Hfirst "" y' b' Hs Hy' eq_refl Hb'). simpl in Hfirst. lia.
    + apply IH; [exact Ha|].
      intros a' y' b' Hs Hy' Ha' Hb'.
      specialize (Hfirst (String c a') y' b').
      simpl in Hfirst. rewrite Hs in Hfirst.
      specialize (Hfirst eq_refl Hy' Ha' Hb'). lia.
Qed.

(** The token that the scan returns is the first one. *)
Lemma yearScan_first (s y : string) (pw : bool) :
  yearScan pw s = Some y ->
  exists a b, s = a ++ y ++ b /\ isYearSeq y = true
              /\ lastWord pw a = false /\ wordAfter b = false
              /\ forall a' y' b', s = a' ++ y' ++ b' -> isYearSeq y' = true ->
                   lastWord pw a' = false -> wordAfter b' = false ->
                   (String.length a <= String.length a')%nat.
Proof.
  revert pw. induction s as [|c s IH]; intros pw; [discriminate|].
  cbn [yearScan].
  destruct (if pw then None else yearAt (String c s)) as [y0|] eqn:E.
  - intros [= ->]. destruct pw; [discriminate|].
    apply yearAt_sound in E as (b & Hs & Hy & Hb).
    exists "", b. repeat split; auto. intros. simpl. lia.
  - intros H. apply IH in H as (a & b & Hs & Hy & Ha & Hb & Hfirst).
    exists (String c a), b. subst s. repeat split; auto.
    intros a' y' b' Hs' Hy' Ha' Hb'.
    destruct a' as [|c' a'].
    + simpl in Ha'. subst pw. simpl in Hs'. rewrite Hs' in E.
      rewrite (yearAt_complete y' b' Hy' Hb') in E. discriminate.
    + injection Hs' as <- Hs'. simpl.
      specialize (Hfirst a' y' b' Hs' Hy' Ha' Hb'). lia.
Qed.

(** The scan finds a token whenever there is one. *)
Lemma yearScan_finds (a y b : string) (pw : bool) :
  isYearSeq y = true -> wordAfter b = false -> lastWord pw a = false ->
  exists y', yearScan pw (a ++ y ++ b) = Some y'.
Proof.
  intros Hy Hb. revert pw. induction a as [|c a IH]; intros pw Ha.
  - simpl in Ha. subst pw. simpl (_ ++ _).
    pose proof (yearAt_complete y b Hy Hb) as E.
    destruct (y ++ b) as [|c s]; [discriminate|].
    exists y. cbn [yearScan]. rewrite E. reflexivity.
  - change (String c a ++ y ++ b) with (String c (a ++ y ++ b)).
    cbn [yearScan].
    destruct (if pw then None else yearAt (String c (a ++ y ++ b))) as [y'|].
    + exists y'. reflexivity.
    + apply IH. exact Ha.
Qed.

Lemma everyYearAdjacent_sound (s : string) (pw : bool) :
  everyYearAdjacent pw s = true ->
  forall a y b, s = a ++ y ++ b -> isYearSeq y = true ->
    lastWord pw a = true \/ wordAfter b = true.
Proof.
  revert pw. induction s as [|c s IH]; intros pw H a y b Hs Hy.
  - destruct a; [|discriminate].
    destruct y as [|c1 [|c2 [|c3 [|c4 [|c5 y]]]]]; discriminate.
  - cbn [everyYearAdjacent] in H. apply andb_prop in H as [Hhead Htail].
    destruct a as [|c' a].
    + simpl in Hs |- *.
      destruct y as [|c1 [|c2 [|c3 [|c4 [|c5 y]]]]]; try discriminate.
      simpl in Hs. injection Hs as -> ->.
      cbn [isYearSeq] in Hhead, Hy. rewrite Hy in Hhead.
      apply orb_prop in Hhead. exact Hhead.
    + injection Hs as -> Hs.
      exact (IH _ Htail a y b Hs Hy).
Qed.

End YearFacts.

(** ** The search matcher *)

Section MatcherFacts.

Lemma firstKeywordRule_unfold (term : string) (float : ArgoFloat) :
  firstKeywordRule term float =
    if mentions term Atlantic then holds Atlantic float
    else if mentions term Pacific then holds Pacific float
    else if mentions term Indian then holds Indian float
    else if mentions term North then holds North float
    else if mentions term South then holds South float
    else if mentions term Equatorial then holds Equatorial float
    else false.
Proof.
  unfold firstKeywordRule, firstKeyword, keywordOrder. cbn [List.find].
  repeat match goal with
         | |- context [if ?b then _ else _] => destruct b; try reflexivity
         end.
Qed.

(** The callback, read as "rules 1 to 3, else the first keyword". *)
Lemma searchMatch_rules (term : string) (float : ArgoFloat) :
  searchMatch term float =
    idRule term float || coordRule term float || cycleRule term float
    || firstKeywordRule term float.
Proof.
  rewrite firstKeywordRule_unfold.
  unfold searchMatch, idRule, coordRule. cbn [mentions holds].
  destruct (includes (toLowerCase (id float)) term); [reflexivity|].
  destruct (includes (coordString 1 float) term); [reflexivity|].
  destruct (includes (coordString 0 float) term); [reflexivity|].
  destruct (cycleRule term float); reflexivity.
Qed.


(** For a term that is a word without digits, only the id rule and the
    keyword rules can fire. *)
Lemma searchMatch_word (term : string) (float : ArgoFloat) :
  allChars isNumChar term = false ->
  searchMatch term float = idRule term float || firstKeywordRule term float.
Proof.
  intros H. rewrite searchMatch_rules, coordRule_foreign, cycleRule_foreign by exact H.
  rewrite !orb_false_r. reflexivity.
Qed.

End MatcherFacts.

(** ** The bounding rules *)

Section BoxFacts.

Lemma Qltb_iff (x y : Q) : Qltb x y = true <-> x < y.
Proof.
  unfold Qltb. rewrite negb_true_iff, <- not_true_iff_false, Qle_bool_iff.
  split; [apply Qnot_le_lt | apply Qlt_not_le].
Qed.

Lemma atlanticBox_iff (lat lon : Q) :
  atlanticBox lat lon = true <-> (-70 <= lon /\ lon <= 20) /\ Qabs lat <= 60.
Proof. unfold atlanticBox. rewrite !andb_true_iff, !Qle_bool_iff. tauto. Qed.

Lemma pacificBox_iff (lat lon : Q) :
  pacificBox lat lon = true <-> (120 <= lon \/ lon <= -70) /\ Qabs lat <= 60.
Proof.
  unfold pacificBox. rewrite andb_true_iff, orb_true_iff, !Qle_bool_iff. tauto.
Qed.

Lemma indianBox_iff (lat lon : Q) :
  indianBox lat lon = true <-> (20 <= lon /\ lon <= 120) /\ (-60 <= lat /\ lat <= 30).
Proof. unfold indianBox. rewrite !andb_true_iff, !Qle_bool_iff. tauto. Qed.

Lemma northBand_iff (lat : Q) : northBand lat = true <-> 23 < lat.
Proof. apply Qltb_iff. Qed.

Lemma southBand_iff (lat : Q) : southBand lat = true <-> lat < -23.
Proof. apply Qltb_iff. Qed.

Lemma equatorialBand_iff (lat : Q) : equatorialBand lat = true <-> Qabs lat <= 23.
Proof. apply Qle_bool_iff. Qed.

End BoxFacts.

(** ** Properties of the filter *)

(** Which predicate the callback applies for a term that is one keyword. *)
Lemma keyword_selects_predicate (float : ArgoFloat) :
  firstKeywordRule "pacific" float = pacificBox (lat float) (lon float)
  /\ firstKeywordRule "atlantic" float = atlanticBox (lat float) (lon float)
  /\ firstKeywordRule "indian" float = indianBox (lat float) (lon float)
  /\ firstKeywordRule "north" float = northBand (lat float)
  /\ firstKeywordRule "arctic" float = northBand (lat float)
  /\ firstKeywordRule "south" float = southBand (lat float)
  /\ firstKeywordRule "antarctic" float = southBand (lat float)
  /\ firstKeywordRule "equatorial" float = equatorialBand (lat float)
  /\ firstKeywordRule "equator" float = equatorialBand (lat float).
Proof. repeat split. Qed.

(** C2: within the coordinate ranges, the predicate that the callback
    applies for each region or latitude-band keyword is the fixed bounding
    rule: a float matches the keyword term exactly when its id holds the
    term or its coordinates satisfy the rule.  pacific is (lon >= 120 or
    lon <= -70) and |lat| <= 60; atlantic is -70 <= lon <= 20 and
    |lat| <= 60; indian is 20 <= lon <= 120 and -60 <= lat <= 30;
    north/arctic is lat > 23; south/antarctic is lat < -23;
    equatorial/equator is |lat| <= 23. *)
Theorem keyword_predicates_are_bounding_rules (float : ArgoFloat) :
  -90 <= lat float <= 90 -> -180 <= lon float <= 180 ->
  (searchMatch "pacific" float = true
   <-> idRule "pacific" float = true
       \/ ((120 <= lon float \/ lon float <= -70) /\ Qabs (lat float) <= 60))
  /\ (searchMatch "atlantic" float = true
      <-> idRule "atlantic" float = true
          \/ ((-70 <= lon float /\ lon float <= 20) /\ Qabs (lat float) <= 60))
  /\ (searchMatch "indian" float = true
      <-> idRule "indian" float = true
          \/ ((20 <= lon float /\ lon float <= 120)
              /\ (-60 <= lat float /\ lat float <= 30)))
  /\ (searchMatch "north" float = true
      <-> idRule "north" float = true \/ 23 < lat float)
  /\ (searchMatch "arctic" float = true
      <-> idRule "arctic" float = true \/ 23 < lat float)
  /\ (searchMatch "south" float = true
      <-> idRule "south" float = true \/ lat float < -23)
  /\ (searchMatch "antarctic" float = true
      <-> idRule "antarctic" float = true \/ lat float < -23)
  /\ (searchMatch "equatorial" float = true
      <-> idRule "equatorial" float = true \/ Qabs (lat float) <= 23)
  /\ (searchMatch "equator" float = true
      <-> idRule "equator" float = true \/ Qabs (lat float) <= 23).
Proof.
  intros _ _.
  repeat match goal with |- _ /\ _ => split end;
    rewrite searchMatch_word by reflexivity; rewrite orb_true_iff.
  - change (firstKeywordRule "pacific" float)
      with (pacificBox (lat float) (lon float)).
    rewrite pacificBox_iff. reflexivity.
  - change (firstKeywordRule "atlantic" float)
      with (atlanticBox (lat float) (lon float)).
    rewrite atlanticBox_iff. reflexivity.
  - change (firstKeywordRule "indian" float)
      with (indianBox (lat float) (lon float)).
    rewrite indianBox_iff. reflexivity.
  - change (firstKeywordRule "north" float) with (northBand (lat float)).
    rewrite northBand_iff. reflexivity.
  - change (firstKeywordRule "arctic" float) with (northBand (lat float)).
    rewrite northBand_iff. reflexivity.
  - change (firstKeywordRule "south" float) with (southBand (lat float)).
    rewrite southBand_iff. reflexivity.
  - change (firstKeywordRule "antarctic" float) with (southBand (lat float)).
    rewrite southBand_iff. reflexivity.
  - change (firstKeywordRule "equatorial" float) with (equatorialBand (lat float)).
    rewrite equatorialBand_iff. reflexivity.
  - change (firstKeywordRule "equator" float) with (equatorialBand (lat float)).
    rewrite equatorialBand_iff. reflexivity.
Qed.

Lemma keyword_predicates_witness :
  (-90 <= lat tasmanFloat <= 90 /\ -180 <= lon tasmanFloat <= 180)
  /\ (searchMatch "pacific" tasmanFloat = true
      <-> idRule "pacific" tasmanFloat = true
          \/ ((120 <= lon tasmanFloat \/ lon tasmanFloat <= -70)
              /\ Qabs (lat tasmanFloat) <= 60)).
Proof.
  assert (Hlat : -90 <= lat tasmanFloat <= 90) by (split; discriminate).
  assert (Hlon : -180 <= lon tasmanFloat <= 180) by (split; discriminate).
  split; [split; assumption|].
  exact (proj1 (keyword_predicates_are_bounding_rules tasmanFloat Hlat Hlon)).
Defined.






(** The range that a year stands for. *)
Lemma year_first_token_range (term a y b : string) :
  standaloneYear term a y b ->
  (forall a' y' b', standaloneYear term a' y' b' ->
     (String.length a <= String.length a')%nat) ->
  extractDateFilterFromSearch term
    = Some (mkDateFilters (y ++ "-01-01") (y ++ "-12-31")).
Proof.
  intros (Hterm & Hy & Ha & Hb) Hfirst.
  unfold extractDateFilterFromSearch.
  rewrite Hterm, yearScan_complete; try assumption; [reflexivity|].
  intros a' y' b' Hs Hy' Ha' Hb'. apply (Hfirst a' y' b').
  unfold standaloneYear. rewrite Hterm. auto.
Qed.

(** C3: when the raw term holds a year token [20dd] of its own, the
    extraction suggests January 1 to December 31 of such a year, the first
    one in the term, and the effect stores that range whatever the range
    was before. *)
Theorem year_token_replaces_range (term : string) :
  (exists a y b, standaloneYear term a y b) ->
  exists a y b,
    standaloneYear term a y b
    /\ (forall a' y' b', standaloneYear term a' y' b' ->
          (String.length a <= String.length a')%nat)
    /\ extractDateFilterFromSearch term
       = Some (mkDateFilters (y ++ "-01-01") (y ++ "-12-31"))
    /\ forall st, searchTerm st = term ->
         startDate (searchEffect st) = (y ++ "-01-01")%string
         /\ endDate (searchEffect st) = (y ++ "-12-31")%string.
Proof.
  intros (a0 & y0 & b0 & Hterm & Hy0 & Ha0 & Hb0).
  destruct (yearScan_finds a0 y0 b0 false Hy0 Hb0 Ha0) as [y E].
  rewrite <- Hterm in E.
  destruct (yearScan_first _ _ _ E) as (a & b & Hs & Hy & Ha & Hb & Hfirst).
  assert (X : extractDateFilterFromSearch term
              = Some (mkDateFilters (y ++ "-01-01") (y ++ "-12-31"))).
  { unfold extractDateFilterFromSearch. rewrite E. reflexivity. }
  exists a, y, b. split; [unfold standaloneYear; auto|].
  split.
  - intros a' y' b' (Hs' & Hy' & Ha' & Hb'). exact (Hfirst a' y' b' Hs' Hy' Ha' Hb').
  - split; [exact X|].
    intros st Hst. unfold searchEffect. rewrite Hst, X. split; reflexivity.
Qed.

Lemma year_token_replaces_range_witness :
  exists a y b,
    standaloneYear "2021" a y b
    /\ (forall a' y' b', standaloneYear "2021" a' y' b' ->
          (String.length a <= String.length a')%nat)
    /\ extractDateFilterFromSearch "2021"
       = Some (mkDateFilters (y ++ "-01-01") (y ++ "-12-31"))
    /\ forall st, searchTerm st = "2021"%string ->
         startDate (searchEffect st) = (y ++ "-01-01")%string
         /\ endDate (searchEffect st) = (y ++ "-12-31")%string.
Proof.
  apply (year_token_replaces_range "2021").
  exists ""%string, "2021"%string, ""%string. unfold standaloneYear. repeat split.
Defined.

(** C10: when every [20dd] run of the raw term touches another word
    character, before or after it, the extraction suggests nothing and the
    effect leaves the date range as it was. *)
Theorem embedded_year_leaves_range (term : string) :
  (forall a y b, term = (a ++ y ++ b)%string -> isYearSeq y = true ->
     wordBefore a = true \/ wordAfter b = true) ->
  extractDateFilterFromSearch term = None
  /\ forall st, searchTerm st = term ->
       startDate (searchEffect st) = startDate st
       /\ endDate (searchEffect st) = endDate st.
Proof.
  intros Hadj.
  assert (E : yearScan false term = None).
  { destruct (yearScan false term) as [y|] eqn:E; [|reflexivity].
    apply yearScan_sound in E as (a & b & Hterm & Hy & Ha & Hb).
    destruct (Hadj a y b Hterm Hy) as [H|H].
    - unfold wordBefore in H. rewrite Ha in H. discriminate.
    - rewrite Hb in H. discriminate. }
  assert (X : extractDateFilterFromSearch term = None).
  { unfold extractDateFilterFromSearch. rewrite E. reflexivity. }
  split; [exact X|].
  intros st Hst. unfold searchEffect. rewrite Hst, X. split; reflexivity.
Qed.

Lemma embedded_year_leaves_range_witness :
  extractDateFilterFromSearch "wmo_2021" = None
  /\ forall st, searchTerm st = "wmo_2021"%string ->
       startDate (searchEffect st) = startDate st
       /\ endDate (searchEffect st) = endDate st.
Proof.
  apply (embedded_year_leaves_range "wmo_2021").
  apply (everyYearAdjacent_sound "wmo_2021" false). reflexivity.
Defined.

(** C4: a search term that is empty or made of white space only filters
    nothing: the list that the effect stores is the input list itself. *)
Theorem blank_search_is_identity (st : State) :
  allChars isWhiteSpace (searchTerm st) = true ->
  filterFloats (searchTerm st) (argoFloats st) = argoFloats st
  /\ filteredFloats (searchEffect st) = argoFloats st.
Proof.
  intros H.
  assert (E : filterFloats (searchTerm st) (argoFloats st) = argoFloats st).
  { unfold filterFloats. rewrite trim_whitespace by exact H. reflexivity. }
  split; [exact E|].
  unfold searchEffect. cbn [filteredFloats setFilteredFloats]. exact E.
Qed.

Lemma blank_search_is_identity_witness :
  let st := mkState [polarFloat; tasmanFloat] [] false None "   " "2015-01-01" "2024-12-31" in
  filterFloats (searchTerm st) (argoFloats st) = argoFloats st
  /\ filteredFloats (searchEffect st) = [polarFloat; tasmanFloat].
Proof.
  cbv zeta.
  apply (blank_search_is_identity
           (mkState [polarFloat; tasmanFloat] [] false None "   " "2015-01-01" "2024-12-31")).
  reflexivity.
Defined.

Lemma filterFloats_sublist (term : string) (floats : list ArgoFloat) :
  sublist (filterFloats term floats) floats.
Proof.
  unfold filterFloats. destruct (isEmpty (trim term)).
  - reflexivity.
  - apply sublist_filter.
Qed.

(** C5: for every state of the component, whatever its date range and
    search term, the list that the effect stores is a subsequence of the
    input list (same records, same relative order), every stored record is a
    record of the input, no duplicate appears that the input does not have,
    and the input list itself is left as it was. *)
Theorem filtered_is_subsequence (st : State) :
  sublist (filteredFloats (searchEffect st)) (argoFloats st)
  /\ filteredFloats (searchEffect st) ⊆ argoFloats st
  /\ (NoDup (argoFloats st) -> NoDup (filteredFloats (searchEffect st)))
  /\ argoFloats (searchEffect st) = argoFloats st.
Proof.
  assert (S : sublist (filteredFloats (searchEffect st)) (argoFloats st)).
  { unfold searchEffect. cbn [filteredFloats setFilteredFloats].
    apply filterFloats_sublist. }
  split; [exact S|]. split; [apply sublist_subseteq, S|].
  split; [intros N; exact (sublist_NoDup _ _ N S)|].
  unfold searchEffect.
  destruct (extractDateFilterFromSearch (searchTerm st)); reflexivity.
Qed.

(** C9: two records with the same id, lat, lon and cycle get the same
    verdict for every term, whatever their measurements, time, status and
    region label are. *)
Theorem searchMatch_reads_four_fields (term : string) (f g : ArgoFloat) :
  id f = id g -> lat f = lat g -> lon f = lon g -> cycle f = cycle g ->
  searchMatch term f = searchMatch term g.
Proof.
  intros Hid Hlat Hlon Hcycle.
  unfold searchMatch, coordString, cycleRule.
  rewrite Hid, Hlat, Hlon, Hcycle. reflexivity.
Qed.

Lemma filtered_is_subsequence_witness :
  sublist [tasmanFloat] [polarFloat; tasmanFloat]
  /\ argoFloats (searchEffect pacificQuery) = [polarFloat; tasmanFloat].
Proof.
  split.
  - exact (proj1 (filtered_is_subsequence pacificQuery)).
  - exact (proj2 (proj2 (proj2 (filtered_is_subsequence pacificQuery)))).
Defined.

Lemma searchMatch_reads_four_fields_witness :
  searchMatch "42" tasmanFloat = searchMatch "42" tasmanFloatBare.
Proof.
  apply (searchMatch_reads_four_fields "42" tasmanFloat tasmanFloatBare);
    reflexivity.
Defined.



(** The cycle rule for a cycle other than zero, and for no cycle. *)
Lemma cycleRule_nonzero (term : string) (float : ArgoFloat) (c : Z) :
  cycle float = Some c -> c <> 0%Z ->
  cycleRule term float = includes (toString c) term.
Proof.
  intros Hc Hnz. unfold cycleRule. rewrite Hc.
  destruct (Z.eqb_spec c 0); [contradiction | reflexivity].
Qed.

Lemma cycleRule_absent (term : string) (float : ArgoFloat) :
  cycle float = None -> cycleRule term float = false.
Proof. intros Hc. unfold cycleRule. rewrite Hc. reflexivity. Qed.

(** C7 fails on the code for cycle 0: the term "0" is a substring of the
    decimal form of the cycle, the cycle rule does not fire, and a record
    that no other rule accepts is left out. *)
Theorem cycle_zero_is_skipped :
  cycle cycleZeroFloat = Some 0%Z
  /\ includes (toString 0) "0" = true
  /\ cycleRule "0" cycleZeroFloat = false
  /\ searchMatch "0" cycleZeroFloat = false.
Proof. repeat split. Qed.


Lemma urlencode_unreserved (s : string) :
  allChars isUnreserved s = true -> urlencode s = s.
Proof.
  induction s as [|c s IH]; simpl; intros H; [reflexivity|].
  apply andb_prop in H as [Hc Hs]. unfold urlencodeChar.
  unfold isUnreserved in Hc. rewrite Hc, (IH Hs). reflexivity.
Qed.

(** On an answer that holds a floats array, the calls lead to the state
    that [fetchArgoFloats] gives. *)
Lemma fetchArgoFloats_calls (typeErrorMessage : string)
    (server : string -> FetchResult) (st : State) :
  applyCalls st (fetchCalls typeErrorMessage (fun url => answerOf (server url)) st)
  = Some (fetchArgoFloats server st).
Proof.
  unfold fetchCalls, fetchArgoFloats, tryFetch, tryCalls, answerOf.
  destruct (server (requestUrl st)) as [msg | [|] status [msg | data]];
    try reflexivity.
  cbn [body_status body_floats body_message].
  destruct (String.eqb (data_status data) "success"); reflexivity.
Qed.



(** ** Further facts about characters and strings *)

Section CaseFacts.

Lemma toLowerChar_whiteSpace (c : ascii) : isWhiteSpace (toLowerChar c) = isWhiteSpace c.
Proof. destruct c as [[] [] [] [] [] [] [] []]; reflexivity. Qed.

Lemma toLowerChar_idem (c : ascii) : toLowerChar (toLowerChar c) = toLowerChar c.
Proof. destruct c as [[] [] [] [] [] [] [] []]; reflexivity. Qed.

Lemma toLowerCase_idem (s : string) : toLowerCase (toLowerCase s) = toLowerCase s.
Proof.
  induction s as [|c s IH]; simpl; [reflexivity|].
  rewrite toLowerChar_idem, IH. reflexivity.
Qed.

Lemma toLowerCase_app (a b : string) :
  toLowerCase (a ++ b) = (toLowerCase a ++ toLowerCase b)%string.
Proof. induction a as [|c a IH]; simpl; [reflexivity | rewrite IH; reflexivity]. Qed.

Lemma isEmpty_toLowerCase (s : string) : isEmpty (toLowerCase s) = isEmpty s.
Proof. destruct s; reflexivity. Qed.

Lemma trimStart_toLowerCase (s : string) :
  trimStart (toLowerCase s) = toLowerCase (trimStart s).
Proof.
  induction s as [|c s IH]; simpl; [reflexivity|].
  rewrite toLowerChar_whiteSpace. destruct (isWhiteSpace c); [exact IH | reflexivity].
Qed.

Lemma trimEnd_toLowerCase (s : string) :
  trimEnd (toLowerCase s) = toLowerCase (trimEnd s).
Proof.
  induction s as [|c s IH]; simpl; [reflexivity|].
  rewrite toLowerChar_whiteSpace, IH, isEmpty_toLowerCase.
  destruct (isWhiteSpace c && isEmpty (trimEnd s)); reflexivity.
Qed.

(** Lower-casing and trimming commute. *)
Lemma trim_toLowerCase (s : string) : trim (toLowerCase s) = toLowerCase (trim s).
Proof. unfold trim. rewrite trimStart_toLowerCase, trimEnd_toLowerCase. reflexivity. Qed.

Lemma trimEnd_whitespace (s : string) :
  allChars isWhiteSpace s = true -> trimEnd s = ""%string.
Proof.
  induction s as [|c s IH]; simpl; intros H; [reflexivity|].
  apply andb_prop in H as [Hc Hs]. rewrite Hc, (IH Hs). reflexivity.
Qed.

Lemma trimEnd_app_whitespace (s ws : string) :
  allChars isWhiteSpace ws = true -> trimEnd (s ++ ws) = trimEnd s.
Proof.
  intros H. induction s as [|c s IH]; simpl.
  - apply trimEnd_whitespace, H.
  - rewrite IH. reflexivity.
Qed.

Lemma trimStart_app_whitespace (ws s : string) :
  allChars isWhiteSpace ws = true -> trimStart (ws ++ s) = trimStart s.
Proof.
  induction ws as [|c ws IH]; simpl; intros H; [reflexivity|].
  apply andb_prop in H as [Hc Hs]. rewrite Hc. apply IH, Hs.
Qed.

(** White space around a string does not survive [trim]. *)
Lemma trim_padding (ws1 s ws2 : string) :
  allChars isWhiteSpace ws1 = true -> allChars isWhiteSpace ws2 = true ->
  trim (ws1 ++ s ++ ws2) = trim s.
Proof.
  intros H1 H2. unfold trim. rewrite trimStart_app_whitespace by exact H1.
  induction s as [|c s IH]; simpl.
  - rewrite (trimStart_whitespace ws2 H2). reflexivity.
  - destruct (isWhiteSpace c); [exact IH|].
    change (String c (s ++ ws2)) with (String c s ++ ws2)%string.
    apply trimEnd_app_whitespace, H2.
Qed.

Lemma includes_refl (s : string) : includes s s = true.
Proof. apply includes_iff. exists ""%string, ""%string. simpl.
  induction s as [|c s IH]; simpl; [reflexivity | rewrite <- IH; reflexivity]. Qed.

Lemma ascii_compare_refl (c : ascii) : Ascii.compare c c = Eq.
Proof. unfold Ascii.compare. apply N.compare_refl. Qed.

Lemma string_compare_app (y a b : string) :
  String.compare (y ++ a) (y ++ b) = String.compare a b.
Proof.
  induction y as [|c y IH]; simpl; [reflexivity|].
  rewrite ascii_compare_refl. exact IH.
Qed.

End CaseFacts.

(** ** More on the year extraction and the search effect *)

(** X1: a range that the extraction suggests is January 1 to December 31
    of one year [20dd] that occurs in the term; its start date is before its
    end date. *)
Theorem extracted_range_is_one_year (term : string) (d : DateFilters) :
  extractDateFilterFromSearch term = Some d ->
  exists y, isYearSeq y = true /\ includes term y = true
            /\ df_startDate d = (y ++ "-01-01")%string
            /\ df_endDate d = (y ++ "-12-31")%string
            /\ String.ltb (df_startDate d) (df_endDate d) = true.
Proof.
  unfold extractDateFilterFromSearch.
  destruct (yearScan false term) as [y|] eqn:E; [|discriminate].
  intros [= <-]. exists y.
  apply yearScan_sound in E as (a & b & Hterm & Hy & _ & _).
  split; [exact Hy|]. split; [apply includes_iff; eauto|].
  split; [reflexivity|]. split; [reflexivity|].
  cbn [df_startDate df_endDate]. unfold String.ltb.
  rewrite string_compare_app. reflexivity.
Qed.

Lemma extracted_range_is_one_year_witness :
  exists y, isYearSeq y = true /\ includes "floats 2021 pacific" y = true
            /\ "2021-01-01"%string = (y ++ "-01-01")%string
            /\ "2021-12-31"%string = (y ++ "-12-31")%string
            /\ String.ltb "2021-01-01" "2021-12-31" = true.
Proof.
  apply (extracted_range_is_one_year "floats 2021 pacific"
           (mkDateFilters "2021-01-01" "2021-12-31")).
  reflexivity.
Defined.

(** X3: the search effect is idempotent: a second run on its own result
    changes nothing, neither the dates nor the filtered list. *)
Theorem searchEffect_idempotent (st : State) :
  searchEffect (searchEffect st) = searchEffect st.
Proof.
  destruct st as [floats filtered ld err term sd ed].
  unfold searchEffect. cbn [searchTerm argoFloats].
  destruct (extractDateFilterFromSearch term) as [d|] eqn:E;
    cbn [setDates setFilteredFloats searchTerm argoFloats filteredFloats loading
         error startDate endDate]; rewrite E; reflexivity.
Qed.

(** The filter reads the term through its trimmed lower-case form only. *)
Lemma filterFloats_key (term : string) (floats : list ArgoFloat) :
  filterFloats term floats =
    if isEmpty (trim (toLowerCase term)) then floats
    else filter (fun float => searchMatch (trim (toLowerCase term)) float) floats.
Proof.
  unfold filterFloats. rewrite trim_toLowerCase, isEmpty_toLowerCase. reflexivity.
Qed.

(** X4: the search is blind to the letter case of the term and to white
    space around it: two terms that differ only in these give the same
    filtered list. *)
Theorem filter_ignores_case_and_padding
    (ws1 ws2 t1 t2 : string) (floats : list ArgoFloat) :
  allChars isWhiteSpace ws1 = true -> allChars isWhiteSpace ws2 = true ->
  toLowerCase t1 = toLowerCase t2 ->
  filterFloats (ws1 ++ t1 ++ ws2) floats = filterFloats t2 floats.
Proof.
  intros H1 H2 Hcase.
  rewrite !filterFloats_key, !trim_toLowerCase.
  rewrite (trim_padding ws1 t1 ws2 H1 H2).
  rewrite <- !trim_toLowerCase, Hcase. reflexivity.
Qed.

Lemma filter_ignores_case_and_padding_witness :
  filterFloats "  PaCiFiC " [polarFloat; tasmanFloat]
  = filterFloats "pacific" [polarFloat; tasmanFloat].
Proof.
  apply (filter_ignores_case_and_padding "  " " " "PaCiFiC" "pacific"); reflexivity.
Defined.

(** X5: for a term that is not blank, the filtered list holds exactly the
    floats of the input that the callback accepts for the trimmed
    lower-case term: no float that matches is dropped. *)
Theorem filtered_holds_all_matches (st : State) (float : ArgoFloat) :
  isEmpty (trim (searchTerm st)) = false ->
  float ∈ filteredFloats (searchEffect st)
  <-> float ∈ argoFloats st
      /\ searchMatch (trim (toLowerCase (searchTerm st))) float = true.
Proof.
  intros Hterm. unfold searchEffect. cbn [filteredFloats setFilteredFloats].
  unfold filterFloats. rewrite Hterm.
  rewrite list_elem_of_filter, Is_true_true. tauto.
Qed.

Lemma filtered_holds_all_matches_witness :
  tasmanFloat ∈ filteredFloats (searchEffect pacificQuery)
  <-> tasmanFloat ∈ argoFloats pacificQuery
      /\ searchMatch (trim (toLowerCase (searchTerm pacificQuery))) tasmanFloat = true.
Proof. apply (filtered_holds_all_matches pacificQuery tasmanFloat). reflexivity. Defined.

(** ** What is rendered *)

Lemma filtered_is_subsequence_core (st : State) :
  sublist (filteredFloats (searchEffect st)) (argoFloats st).
Proof.
  unfold searchEffect. cbn [filteredFloats setFilteredFloats].
  apply filterFloats_sublist.
Qed.

Lemma markers_sublist (st : State) : sublist (markers st) (filteredFloats st).
Proof.
  unfold markers. destruct (negb (loading st) && negb (truthy (error st))).
  - apply sublist_take.
  - apply sublist_nil_l.
Qed.

(** X6: after the search effect, the floats that get a marker are a
    subsequence of the fetched floats, at most 1000 of them; there is none
    while the component is loading or shows an error; otherwise, when no
    more than 1000 floats are found, each of them gets a marker. *)
Theorem markers_after_search (st : State) :
  sublist (markers (searchEffect st)) (argoFloats st)
  /\ (length (markers (searchEffect st)) <= 1000)%nat
  /\ (loading st = true \/ truthy (error st) = true -> markers (searchEffect st) = [])
  /\ (loading st = false -> truthy (error st) = false ->
      (length (filteredFloats (searchEffect st)) <= 1000)%nat ->
      markers (searchEffect st) = filteredFloats (searchEffect st)).
Proof.
  assert (L : loading (searchEffect st) = loading st).
  { unfold searchEffect. destruct (extractDateFilterFromSearch _); reflexivity. }
  assert (E : error (searchEffect st) = error st).
  { unfold searchEffect. destruct (extractDateFilterFromSearch _); reflexivity. }
  split; [|split; [|split]].
  - etransitivity; [apply markers_sublist|].
    apply (filtered_is_subsequence_core st).
  - unfold markers. destruct (_ && _); simpl; [|lia].
    rewrite length_take. lia.
  - intros H. unfold markers. rewrite L, E.
    destruct H as [-> | ->]; [reflexivity|]. rewrite andb_false_r. reflexivity.
  - intros Hl He Hlen. unfold markers. rewrite L, E, Hl, He. simpl.
    apply take_ge. exact Hlen.
Qed.

Lemma markers_after_search_witness :
  sublist (markers (searchEffect pacificQuery)) (argoFloats pacificQuery)
  /\ markers (searchEffect pacificQuery) = [tasmanFloat].
Proof.
  pose proof (markers_after_search pacificQuery) as (S & _ & _ & M).
  split; [exact S|].
  exact (M eq_refl eq_refl (le_S _ _ (Nat.lt_0_succ 998))).
Defined.

Lemma countStatus_cons (s : string) (f : ArgoFloat) (l : list ArgoFloat) :
  countStatus s (f :: l)
  = ((if String.eqb (status f) s then 1 else 0) + countStatus s l)%nat.
Proof.
  unfold countStatus. rewrite filter_cons.
  destruct (String.eqb (status f) s); simpl; reflexivity.
Qed.

Lemma countStatus_sublist (s : string) (l1 l2 : list ArgoFloat) :
  sublist l1 l2 -> (countStatus s l1 <= countStatus s l2)%nat.
Proof.
  induction 1 as [|f l1 l2 _ IH|f l1 l2 _ IH]; rewrite ?countStatus_cons.
  - reflexivity.
  - lia.
  - destruct (String.eqb (status f) s); lia.
Qed.

(** X7: the two status counts of a list never add up to more than its
    length, and they add up to the length exactly when every float of the
    list has status "active" or "inactive". *)
Theorem status_counts_partition (floats : list ArgoFloat) :
  (countStatus "active" floats + countStatus "inactive" floats
   <= length floats)%nat
  /\ ((countStatus "active" floats + countStatus "inactive" floats)%nat
      = length floats
      <-> Forall (fun f => status f = "active"%string \/ status f = "inactive"%string)
                 floats).
Proof.
  induction floats as [|f l [IHle IHeq]].
  - split; [reflexivity|]. split; [constructor | reflexivity].
  - rewrite !countStatus_cons. cbn [length].
    destruct (String.eqb_spec (status f) "active") as [Ea|Na].
    + rewrite Ea. cbn [String.eqb Ascii.eqb Bool.eqb]. split; [lia|].
      rewrite Forall_cons, <- IHeq. split; [intros; split; [auto|lia] | intros [_ ?]; lia].
    + destruct (String.eqb_spec (status f) "inactive") as [Ei|Ni].
      * split; [lia|].
        rewrite Forall_cons, <- IHeq. split; [intros; split; [auto|lia] | intros [_ ?]; lia].
      * split; [lia|].
        rewrite Forall_cons. split; [lia | intros [[?|?] _]; contradiction].
Qed.

(** X8: among the floats found by a search, there are never more of a
    given status than among all the fetched floats, and never more found
    than fetched. *)
Theorem found_counts_bounded (st : State) (s : string) :
  (countStatus s (filteredFloats (searchEffect st)) <= countStatus s (argoFloats st))%nat
  /\ (length (filteredFloats (searchEffect st)) <= length (argoFloats st))%nat.
Proof.
  split.
  - apply countStatus_sublist, filtered_is_subsequence_core.
  - apply sublist_length, filtered_is_subsequence_core.
Qed.

(** X9: from the layer "ocean" that the component starts with, the layer
    after n toggles is "ocean" for an even n and "satellite" for an odd n;
    and two toggles give back the layer one started from exactly for these
    two layers. *)
Theorem toggleMapLayer_alternates (n : nat) (mapLayer : string) :
  Nat.iter n toggleMapLayer "ocean"
  = (if Nat.even n then "ocean" else "satellite")%string
  /\ (toggleMapLayer (toggleMapLayer mapLayer) = mapLayer
      <-> mapLayer = "ocean"%string \/ mapLayer = "satellite"%string).
Proof.
  split.
  - induction n as [|n IH]; [reflexivity|].
    rewrite Nat.even_succ, <- Nat.negb_even, Nat.iter_succ, IH.
    destruct (Nat.even n); reflexivity.
  - unfold toggleMapLayer.
    destruct (String.eqb_spec mapLayer "satellite") as [->|N].
    + cbn. tauto.
    + cbn. split.
      * intros H. left. symmetry. exact H.
      * intros [H | H]; [symmetry; exact H | contradiction].
Qed.

Lemma firstField_split (t : string) :
  exists rest, t = (firstField t ++ rest)%string
               /\ (rest = ""%string \/ startsWith rest " " = true).
Proof.
  induction t as [|c t (rest & Ht & Hrest)]; simpl.
  - exists ""%string. auto.
  - destruct (Ascii.eqb_spec c " ") as [->|N].
    + exists (String " " t). auto.
    + exists rest. simpl. rewrite <- Ht. auto.
Qed.

Lemma firstField_no_space (t : string) :
  allChars (fun c => negb (Ascii.eqb c " ")) (firstField t) = true.
Proof.
  induction t as [|c t IH]; simpl; [reflexivity|].
  destruct (Ascii.eqb c " ") eqn:E; simpl; [reflexivity|].
  rewrite E, IH. reflexivity.
Qed.

(** X10: the "Last Profile" line is absent for a float without time or
    with an empty time; otherwise it shows the part of the time before its
    first space: that part holds no space, and the time is that part alone
    or that part followed by a space and more. *)
Theorem lastProfile_is_date_part (float : ArgoFloat) :
  match time float with
  | None => lastProfile float = None
  | Some t =>
      if isEmpty t then lastProfile float = None
      else exists shown rest,
          lastProfile float = Some shown
          /\ t = (shown ++ rest)%string
          /\ includes shown " " = false
          /\ (rest = ""%string \/ startsWith rest " " = true)
  end.
Proof.
  unfold lastProfile. destruct (time float) as [t|]; [|reflexivity].
  destruct t as [|c t]; [reflexivity|]. cbn [truthy isEmpty negb].
  destruct (firstField_split (String c t)) as (rest & Ht & Hrest).
  exists (firstField (String c t)), rest.
  split; [reflexivity|]. split; [exact Ht|]. split; [|exact Hrest].
  apply (includes_foreign (fun c => negb (Ascii.eqb c " "))).
  - apply firstField_no_space.
  - reflexivity.
Qed.

(** ** The request of the fetch effect *)

Lemma isDigit_isUnreserved (c : ascii) : isDigit c = true -> isUnreserved c = true.
Proof. intros H. unfold isUnreserved. rewrite H, !orb_true_r. reflexivity. Qed.

Lemma year_date_unreserved (y tail : string) :
  isYearSeq y = true -> allChars isUnreserved tail = true ->
  urlencode (y ++ tail) = (y ++ tail)%string.
Proof.
  intros Hy Ht. apply urlencode_unreserved. rewrite allChars_app, Ht, andb_true_r.
  destruct y as [|c1 [|c2 [|c3 [|c4 [|c5 y]]]]]; try discriminate.
  cbn [isYearSeq] in Hy.
  apply andb_prop in Hy as [Hy D4]. apply andb_prop in Hy as [Hy D3].
  apply andb_prop in Hy as [E1 E2].
  apply Ascii.eqb_eq in E1, E2. subst c1 c2.
  cbn [allChars]. rewrite (isDigit_isUnreserved _ D3), (isDigit_isUnreserved _ D4).
  reflexivity.
Qed.

(** X11: the request carries no query string exactly when both dates
    have their initial values; any other start or end date is sent. *)
Theorem bare_request_iff_default_dates (st : State) :
  requestUrl st = "/floats/locations"%string
  <-> startDate st = "2015-01-01"%string /\ endDate st = "2024-12-31"%string.
Proof.
  unfold requestUrl, queryParams.
  destruct (String.eqb_spec (startDate st) "2015-01-01") as [Es|Ns];
    destruct (String.eqb_spec (endDate st) "2024-12-31") as [Ee|Ne].
  - split; [auto | reflexivity].
  - split; [discriminate | intros [_ ?]; contradiction].
  - split; [discriminate | intros [? _]; contradiction].
  - split; [discriminate | intros [? _]; contradiction].
Qed.

(** X12: when the term holds a year, the request that follows the search
    effect asks for that year: both dates are sent, except that a start
    date 2015-01-01 and an end date 2024-12-31, being the initial values,
    are left out of the query string. *)
Theorem year_search_request (st : State) (d : DateFilters) :
  extractDateFilterFromSearch (searchTerm st) = Some d ->
  requestUrl (searchEffect st)
  = ("/floats/locations?" ++
     (if String.eqb (df_startDate d) "2015-01-01"
      then "end_date=" ++ df_endDate d
      else if String.eqb (df_endDate d) "2024-12-31"
           then "start_date=" ++ df_startDate d
           else "start_date=" ++ df_startDate d ++ "&end_date=" ++ df_endDate d))%string.
Proof.
  intros E. unfold searchEffect. rewrite E.
  unfold extractDateFilterFromSearch in E.
  destruct (yearScan false (searchTerm st)) as [y|] eqn:Y; [|discriminate].
  injection E as <-.
  apply yearScan_sound in Y as (_ & _ & _ & Hy & _ & _).
  unfold requestUrl, queryParams.
  cbn [startDate endDate setDates setFilteredFloats df_startDate df_endDate].
  pose proof (year_date_unreserved y "-01-01" Hy eq_refl) as U1.
  pose proof (year_date_unreserved y "-12-31" Hy eq_refl) as U2.
  destruct (String.eqb_spec (y ++ "-01-01") "2015-01-01") as [Es|Ns].
  - destruct y as [|c1 [|c2 [|c3 [|c4 [|c5 y]]]]]; try discriminate.
    injection Es as -> -> -> ->. reflexivity.
  - destruct (String.eqb_spec (y ++ "-12-31") "2024-12-31") as [Ee|Ne].
    + destruct y as [|c1 [|c2 [|c3 [|c4 [|c5 y]]]]]; try discriminate.
      injection Ee as -> -> -> ->. reflexivity.
    + cbn [app paramsToString]. rewrite U1, U2. reflexivity.
Qed.

Lemma year_search_request_witness :
  requestUrl (searchEffect (mkState [] [] false None "argo 2021" "2015-01-01" "2024-12-31"))
  = "/floats/locations?start_date=2021-01-01&end_date=2021-12-31"%string.
Proof.
  apply (year_search_request
           (mkState [] [] false None "argo 2021" "2015-01-01" "2024-12-31")
           (mkDateFilters "2021-01-01" "2021-12-31")).
  reflexivity.
Defined.

(** ** Errors and the loading flag *)

Lemma fetch_loading (server : string -> FetchResult) (st : State) :
  loading (fetchArgoFloats server st) = false.
Proof. unfold fetchArgoFloats. destruct (tryFetch server st); reflexivity. Qed.

Lemma fetch_error (server : string -> FetchResult) (st : State) :
  error (fetchArgoFloats server st) = error st
  \/ exists msg, error (fetchArgoFloats server st) = Some msg.
Proof.
  unfold fetchArgoFloats. destruct (tryFetch server st) as [msg|floats].
  - right. exists msg. reflexivity.
  - left. reflexivity.
Qed.

Lemma search_keeps_flags (st : State) :
  error (searchEffect st) = error st /\ loading (searchEffect st) = loading st.
Proof.
  unfold searchEffect. destruct (extractDateFilterFromSearch _); split; reflexivity.
Qed.

Lemma act_keeps_error (st : State) (a : Action) :
  error st <> None -> error (act st a) <> None.
Proof.
  intros H. destruct a as [term|d|d| |server]; cbn [act]; try exact H.
  - rewrite (proj1 (search_keeps_flags st)). exact H.
  - destruct (fetch_error server st) as [E|[msg E]]; rewrite E; [exact H | discriminate].
Qed.

Lemma act_keeps_loaded (st : State) (a : Action) :
  loading st = false -> loading (act st a) = false.
Proof.
  intros H. destruct a as [term|d|d| |server]; cbn [act]; try exact H.
  - rewrite (proj2 (search_keeps_flags st)). exact H.
  - apply fetch_loading.
Qed.

(** X13: nothing that can happen to the component resets its error or
    its loading flag: through every sequence of handler calls and effect
    runs, an error once set stays set, and loading once over stays over;
    loading is over as soon as one fetch effect has run. *)
Theorem run_never_resets_error_or_loading (actions : list Action) (st : State) :
  (error st <> None -> error (run actions st) <> None)
  /\ (loading st = false -> loading (run actions st) = false)
  /\ ((exists server, In (RunFetchEffect server) actions) ->
      loading (run actions st) = false).
Proof.
  assert (Herr : forall l s, error s <> None -> error (run l s) <> None).
  { induction l as [|a l IH]; intros s H; [exact H|].
    apply (IH (act s a)), act_keeps_error, H. }
  assert (Hload : forall l s, loading s = false -> loading (run l s) = false).
  { induction l as [|a l IH]; intros s H; [exact H|].
    apply (IH (act s a)), act_keeps_loaded, H. }
  split; [apply Herr|]. split; [apply Hload|].
  intros [server Hin]. revert st.
  induction actions as [|a l IH]; intros st; [destruct Hin|].
  destruct Hin as [->|Hin].
  - apply (Hload l). apply fetch_loading.
  - apply (IH Hin).
Qed.

Lemma run_never_resets_error_or_loading_witness :
  error (run [RunFetchEffect acceptingServer; TypeSearch "pacific"; RunSearchEffect]
             (mkState [] [] true (Some "Failed to fetch: 500"%string) ""
                      "2015-01-01" "2024-12-31")) <> None.
Proof.
  apply (run_never_resets_error_or_loading
           [RunFetchEffect acceptingServer; TypeSearch "pacific"; RunSearchEffect]
           (mkState [] [] true (Some "Failed to fetch: 500"%string) ""
                    "2015-01-01" "2024-12-31")).
  discriminate.
Defined.



(** ** Typing and clearing the search *)

Lemma whiteSpace_not_two (c : ascii) : isWhiteSpace c = true -> Ascii.eqb c "2" = false.
Proof.
  intros H. destruct (Ascii.eqb_spec c "2") as [->|_]; [discriminate | reflexivity].
Qed.

Lemma yearScan_blank (s : string) (pw : bool) :
  allChars isWhiteSpace s = true -> yearScan pw s = None.
Proof.
  revert pw. induction s as [|c s IH]; intros pw H; [reflexivity|].
  simpl in H. apply andb_prop in H as [Hc Hs].
  cbn [yearScan]. rewrite (IH _ Hs).
  destruct pw; [reflexivity|].
  unfold yearAt. destruct s as [|c2 [|c3 [|c4 rest]]]; try reflexivity.
  rewrite (whiteSpace_not_two c Hc). reflexivity.
Qed.

(** X15: clearing the search box does not undo the date range that a
    year in the previous term has set: after a term with a year and then a
    blank term, the dates are still those of the year, and all the floats
    are shown. *)
Theorem clearing_search_keeps_year_range (st : State) (d : DateFilters) (blank : string) :
  extractDateFilterFromSearch (searchTerm st) = Some d ->
  allChars isWhiteSpace blank = true ->
  startDate (searchEffect (setSearchTerm blank (searchEffect st))) = df_startDate d
  /\ endDate (searchEffect (setSearchTerm blank (searchEffect st))) = df_endDate d
  /\ filteredFloats (searchEffect (setSearchTerm blank (searchEffect st)))
     = argoFloats st.
Proof.
  intros E Hblank.
  assert (N : extractDateFilterFromSearch blank = None).
  { unfold extractDateFilterFromSearch. rewrite yearScan_blank by exact Hblank.
    reflexivity. }
  assert (S1 : startDate (searchEffect st) = df_startDate d
               /\ endDate (searchEffect st) = df_endDate d
               /\ argoFloats (searchEffect st) = argoFloats st).
  { unfold searchEffect. rewrite E. repeat split. }
  destruct S1 as (Hs & He & Hf).
  set (st1 := searchEffect st) in *.
  unfold searchEffect. cbn [searchTerm setSearchTerm argoFloats].
  rewrite N. cbn [startDate endDate filteredFloats setFilteredFloats setSearchTerm].
  unfold filterFloats. rewrite trim_whitespace by exact Hblank.
  cbn [isEmpty]. auto.
Qed.

Lemma clearing_search_keeps_year_range_witness :
  startDate (searchEffect (setSearchTerm ""
              (searchEffect (mkState [polarFloat] [] false None "2021"
                                     "2015-01-01" "2024-12-31"))))
  = "2021-01-01"%string.
Proof.
  exact (proj1 (clearing_search_keeps_year_range
                  (mkState [polarFloat] [] false None "2021" "2015-01-01" "2024-12-31")
                  (mkDateFilters "2021-01-01" "2021-12-31") "" eq_refl eq_refl)).
Defined.

Lemma trimStart_suffix (s : string) : exists w, s = (w ++ trimStart s)%string.
Proof.
  induction s as [|c s [w IH]]; simpl.
  - exists ""%string. reflexivity.
  - destruct (isWhiteSpace c).
    + exists (String c w). simpl. rewrite <- IH. reflexivity.
    + exists ""%string. reflexivity.
Qed.

Lemma trimEnd_prefix (s : string) : exists w, s = (trimEnd s ++ w)%string.
Proof.
  induction s as [|c s [w IH]]; simpl.
  - exists ""%string. reflexivity.
  - destruct (isWhiteSpace c && isEmpty (trimEnd s)).
    + exists (String c s). reflexivity.
    + exists w. simpl. rewrite <- IH. reflexivity.
Qed.

Lemma includes_trim (s : string) : includes s (trim s) = true.
Proof.
  apply includes_iff. unfold trim.
  destruct (trimStart_suffix s) as [w1 H1].
  destruct (trimEnd_prefix (trimStart s)) as [w2 H2].
  exists w1, w2. rewrite <- H2. exact H1.
Qed.

Lemma isNumChar_toLowerChar (c : ascii) : isNumChar c = true -> toLowerChar c = c.
Proof. destruct c as [[] [] [] [] [] [] [] []]; (reflexivity || discriminate). Qed.

Lemma numChars_toLowerCase (s : string) :
  allChars isNumChar s = true -> toLowerCase s = s.
Proof.
  induction s as [|c s IH]; simpl; intros H; [reflexivity|].
  apply andb_prop in H as [Hc Hs].
  rewrite (isNumChar_toLowerChar c Hc), (IH Hs). reflexivity.
Qed.

Lemma filterFloats_keeps (term : string) (floats : list ArgoFloat) (float : ArgoFloat) :
  float ∈ floats -> searchMatch (trim (toLowerCase term)) float = true ->
  float ∈ filterFloats term floats.
Proof.
  intros Hin Hm. unfold filterFloats. destruct (isEmpty (trim term)); [exact Hin|].
  apply list_elem_of_filter. split; [apply Is_true_true, Hm | exact Hin].
Qed.

(** X16: a float of the list is always found by typing its id, in any
    letter case; when its coordinates are within range, by typing either of
    its formatted coordinate pairs; and when its cycle is a safe integer
    other than zero, by typing its cycle number. *)
Theorem float_found_by_own_fields
    (term : string) (floats : list ArgoFloat) (float : ArgoFloat) :
  float ∈ floats ->
  toLowerCase term = toLowerCase (id float)
  \/ (validCoordinates float
      /\ (term = coordString 1 float \/ term = coordString 0 float))
  \/ (exists c, cycle float = Some c /\ c <> 0%Z /\ isSafeInteger c = true
                /\ term = toString c) ->
  float ∈ filterFloats term floats.
Proof.
  intros Hin Hterm. apply filterFloats_keeps; [exact Hin|].
  rewrite searchMatch_rules.
  destruct Hterm as [H|[[_ [H|H]]|(c & Hc & Hnz & _ & H)]].
  - unfold idRule. rewrite H, includes_trim. reflexivity.
  - replace (coordRule _ float) with true; [rewrite orb_true_r; reflexivity|].
    symmetry. unfold coordRule. subst term.
    rewrite numChars_toLowerCase by apply coordString_numChars.
    rewrite includes_trim. reflexivity.
  - replace (coordRule _ float) with true; [rewrite orb_true_r; reflexivity|].
    symmetry. unfold coordRule. subst term.
    rewrite numChars_toLowerCase by apply coordString_numChars.
    rewrite includes_trim. apply orb_true_r.
  - replace (cycleRule _ float) with true; [rewrite orb_true_r; reflexivity|].
    symmetry. rewrite (cycleRule_nonzero _ float c Hc Hnz). subst term.
    rewrite numChars_toLowerCase by apply toString_numChars.
    apply includes_trim.
Qed.

Lemma float_found_by_own_fields_witness :
  tasmanFloat ∈ filterFloats "wmo_2021_pac_042" [polarFloat; tasmanFloat].
Proof.
  apply (float_found_by_own_fields "wmo_2021_pac_042" [polarFloat; tasmanFloat] tasmanFloat).
  - apply list_elem_of_further, list_elem_of_here.
  - left. reflexivity.
Defined.

(** ** How the bounding rules divide the map *)

(** X17: every latitude lies in exactly one of the three bands: north of
    23, south of -23, or equatorial. *)
Theorem latitude_bands_partition (lat : Q) :
  (northBand lat = true /\ southBand lat = false /\ equatorialBand lat = false)
  \/ (northBand lat = false /\ southBand lat = true /\ equatorialBand lat = false)
  \/ (northBand lat = false /\ southBand lat = false /\ equatorialBand lat = true).
Proof.
  pose proof (northBand_iff lat) as N.
  pose proof (southBand_iff lat) as S.
  pose proof (equatorialBand_iff lat) as E.
  rewrite Qabs_Qle_condition in E.
  destruct (northBand lat), (southBand lat), (equatorialBand lat);
    try (left; repeat split; fail);
    try (right; left; repeat split; fail);
    try (right; right; repeat split; fail);
    exfalso.
  - assert (23 < lat) by (apply N; reflexivity).
    assert (lat < -23) by (apply S; reflexivity). lra.
  - assert (23 < lat) by (apply N; reflexivity).
    assert (lat < -23) by (apply S; reflexivity). lra.
  - assert (23 < lat) by (apply N; reflexivity).
    assert (- (23) <= lat <= 23) by (apply E; reflexivity). lra.
  - assert (lat < -23) by (apply S; reflexivity).
    assert (- (23) <= lat <= 23) by (apply E; reflexivity). lra.
  - assert (H1 : ~ 23 < lat) by (intros X; apply N in X; discriminate).
    assert (H2 : ~ lat < -23) by (intros X; apply S in X; discriminate).
    assert (H3 : ~ (- (23) <= lat <= 23)) by (intros X; apply E in X; discriminate).
    lra.
Qed.

(** X18: two basin boxes share a point only on the meridian between
    them (-70 for atlantic and pacific, 20 for atlantic and indian, 120 for
    indian and pacific); every point with latitude from -60 to 30 is in at
    least one box; and north of 30, between the meridians 20 and 120, a
    point is in none. *)
Theorem basin_boxes_meet_on_meridians (lat lon : Q) :
  (atlanticBox lat lon = true -> pacificBox lat lon = true -> lon == -70)
  /\ (atlanticBox lat lon = true -> indianBox lat lon = true -> lon == 20)
  /\ (indianBox lat lon = true -> pacificBox lat lon = true -> lon == 120)
  /\ (-60 <= lat <= 30 ->
      atlanticBox lat lon = true \/ pacificBox lat lon = true
      \/ indianBox lat lon = true)
  /\ (30 < lat -> 20 < lon < 120 ->
      atlanticBox lat lon = false /\ pacificBox lat lon = false
      /\ indianBox lat lon = false).
Proof.
  pose proof (atlanticBox_iff lat lon) as A.
  pose proof (pacificBox_iff lat lon) as P.
  pose proof (indianBox_iff lat lon) as I.
  rewrite Qabs_Qle_condition in A, P.
  repeat match goal with |- _ /\ _ => split end.
  - intros Ha Hp. apply A in Ha. apply P in Hp. lra.
  - intros Ha Hi. apply A in Ha. apply I in Hi. lra.
  - intros Hi Hp. apply I in Hi. apply P in Hp. lra.
  - intros Hlat.
    destruct (Qlt_le_dec lon (-70)) as [L1|L1].
    + right. left. apply P. lra.
    + destruct (Qlt_le_dec 20 lon) as [L2|L2].
      * destruct (Qlt_le_dec 120 lon) as [L3|L3].
        -- right. left. apply P. lra.
        -- right. right. apply I. lra.
      * left. apply A. lra.
  - intros Hlat Hlon.
    repeat split; apply not_true_is_false; intros H.
    + apply A in H. lra.
    + apply P in H. lra.
    + apply I in H. lra.
Qed.

Lemma basin_boxes_meet_on_meridians_witness :
  atlanticBox 10 (-70) = true /\ pacificBox 10 (-70) = true /\ -70 == -70.
Proof.
  assert (Ha : atlanticBox 10 (-70) = true) by reflexivity.
  assert (Hp : pacificBox 10 (-70) = true) by reflexivity.
  split; [exact Ha|]. split; [exact Hp|].
  exact (proj1 (basin_boxes_meet_on_meridians 10 (-70)) Ha Hp).
Defined.
